(** * werewolf_assistant: the room / game / vote model of [app/models.py]

    A shallow embedding of the SQLAlchemy models [User], [Room], [Player],
    [Game] and [Vote] and of their derived properties.  The persistent store
    that the models reach through [db.session] and [Model.query] is an
    explicit record of tables; a Python exception is an explicit result. *)

From Stdlib Require Import ZArith Lia.
From stdpp Require Import base option list gmap sets strings.

Local Open Scope string_scope.
Local Open Scope list_scope.
Local Open Scope Z_scope.

(** ** The Python layer: values, exceptions, truthiness *)

Module Py.

(** The exceptions the models can raise.  [AttributeError cls attr] is
    the failure of [obj.attr] on an object of class [cls]; on [None] the
    class is [NoneType]. *)
Inductive exn :=
| ValueError (msg : string)
| AttributeError (cls attr : string)
| TypeError (msg : string).

(** The outcome of evaluating an expression or a body: a value, or a
    raised exception that nothing in the models catches. *)
Inductive res (A : Type) :=
| Ret (a : A)
| Raise (e : exn).
Arguments Ret {A} a.
Arguments Raise {A} e.

Definition bind {A B} (m : res A) (k : A → res B) : res B :=
  match m with
  | Ret a => k a
  | Raise e => Raise e
  end.

(** Dynamically typed values, for the attributes whose Python type is not
    fixed by their column ([Game.current_round] holds a string, [None] or
    the integer that [Game.end] stores). *)
#[warnings="-register-all"] Inductive value :=
| VNone
| VBool (b : bool)
| VInt (z : Z)
| VStr (s : string)
| VList (l : list value).

(** Python's truth protocol ([bool(x)], the test of an [if]). *)
Class Truthy (A : Type) := truthy : A → bool.

Definition none_type : string := "NoneType".

(** [o.attr] where [o] may be [None]. *)
Definition getattr_opt {A B} (o : option A) (attr : string) (get : A → res B)
  : res B :=
  match o with
  | Some a => get a
  | None => Raise (AttributeError none_type attr)
  end.

(** The failures of the "null dereference" class: an attribute looked up
    on [None]. *)
Definition is_null_dereference (e : exn) : bool :=
  match e with
  | AttributeError cls _ => String.eqb cls none_type
  | _ => false
  end.

(** [len(v)]: defined on strings and lists only. *)
Definition len (v : value) : res value :=
  match v with
  | VStr s => Ret (VInt (Z.of_nat (String.length s)))
  | VList l => Ret (VInt (Z.of_nat (length l)))
  | VNone => Raise (TypeError "object of type 'NoneType' has no len()")
  | VBool _ => Raise (TypeError "object of type 'bool' has no len()")
  | VInt _ => Raise (TypeError "object of type 'int' has no len()")
  end.

(** [v == 0]; [False == 0] holds in Python, a string or a list never
    equals an integer. *)
Definition eq_zero (v : value) : value :=
  match v with
  | VInt z => VBool (z =? 0)
  | VBool b => VBool (negb b)
  | _ => VBool false
  end.

(** [range(a, b)] *)
Definition range (a b : Z) : list Z :=
  (λ i : nat, a + Z.of_nat i) <$> seq 0 (Z.to_nat (b - a)).

(** [query.first()]: the first row of a result, [None] on an empty one. *)
Definition first {A} (rows : list A) : option A := head rows.

End Py.

Import Py.

#[export] Instance res_ret : MRet res := λ A a, Ret a.
#[export] Instance res_bind : MBind res := λ A B k m, Py.bind m k.

#[export] Instance truthy_bool : Truthy bool := λ b, b.
#[export] Instance truthy_Z : Truthy Z := λ z, negb (z =? 0).
#[export] Instance truthy_string : Truthy string :=
  λ s, negb (String.eqb s EmptyString).
#[export] Instance truthy_option `{Truthy A} : Truthy (option A) :=
  λ o, match o with Some a => truthy a | None => false end.
#[export] Instance truthy_value : Truthy value :=
  λ v, match v with
       | VNone => false
       | VBool b => truthy b
       | VInt z => truthy z
       | VStr s => truthy s
       | VList l => negb (bool_decide (l = []))
       end.

(** ** The tables: one record per model, one field per column *)

(** [datetime] values, as seconds on the clock that [datetime.now] reads. *)
Definition datetime := Z.

Module user.
Record t := mk {
  id : Z;
  username : option string;
  email : option string;
  password_hash : option string;
}.
End user.

Module room.
Record t := mk {
  id : Z;
  name : string;
}.
End room.

Module player.
Record t := mk {
  id : Z;
  user_id : Z;
  room_id : Z;
  is_host : option bool;
  character : option string;
  seat : option Z;
  is_dead : option bool;
  capable_for_vote : option bool;
}.
End player.

Module game.
Record t := mk {
  id : Z;
  room_id : Z;
  template : string;
  current_round : value;
  is_active : option bool;
  start_time : option datetime;
  finish_time : option datetime;
}.
End game.

Module vote.
Record t := mk {
  id : Z;
  game_id : option Z;
  player_id : option Z;
  vote_for : option Z;
  round : option string;
}.
End vote.

(** The store behind [db.session]: each table is the list of its rows, in
    the order in which an unordered query yields them. *)
Record database := mk_database {
  users : list user.t;
  rooms : list room.t;
  players : list player.t;
  games : list game.t;
  votes : list vote.t;
}.

(** An [UPDATE] of the rows of [player], and one of the rows of [game]. *)
Definition update_players (f : player.t → player.t) (db : database)
  : database :=
  mk_database (users db) (rooms db) (f <$> players db) (games db) (votes db).

Definition update_games (f : game.t → game.t) (db : database) : database :=
  mk_database (users db) (rooms db) (players db) (f <$> games db) (votes db).

(** [id] is the primary key of [player]. *)
Definition player_primary_key (db : database) : Prop :=
  NoDup (player.id <$> players db).

(** ** class User *)

Module User.

(** [role = db.relationship('Player', backref='user', lazy='dynamic')]:
    the query for the players of this user. *)
Definition role (db : database) (self : user.t) : list player.t :=
  filter (λ p, player.user_id p = user.id self) (players db).

(** [return self.role.first().is_host == True] *)
Definition is_host (db : database) (self : user.t) : res bool :=
  flag ← getattr_opt (first (role db self)) "is_host"
                     (λ p, Ret (player.is_host p));
  Ret (bool_decide (flag = Some true)).

(** [room_id = Room.query.filter_by(name=room_name).first().id]
    [return self.role.filter_by(room_id=room_id).first()] *)
Definition current_role (db : database) (self : user.t) (room_name : string)
  : res (option player.t) :=
  room_id ← getattr_opt
              (first (filter (λ r, room.name r = room_name) (rooms db)))
              "id" (λ r, Ret (room.id r));
  Ret (first (filter (λ p, player.room_id p = room_id) (role db self))).

End User.

(** ** class Player *)

Module Player.

(** [votes = db.relationship('Vote', backref='player', lazy='dynamic')] *)
Definition votes (db : database) (self : player.t) : list vote.t :=
  filter (λ v, vote.player_id v = Some (player.id self)) (votes db).

(** [self.votes.filter_by(round=round_name)] *)
Definition votes_in_round (db : database) (self : player.t)
    (round_name : string) : list vote.t :=
  filter (λ v, vote.round v = Some round_name) (votes db self).

(** [return self.seat is not None] *)
Definition is_seated (self : player.t) : bool :=
  bool_decide (player.seat self ≠ None).

(** [self.user], the backref of [User.role]: the row of [user] that
    [user_id] refers to. *)
Definition user (db : database) (self : player.t) : option user.t :=
  first (filter (λ u, user.id u = player.user_id self) (users db)).

(** [return self.user.username] *)
Definition name (db : database) (self : player.t) : res (option string) :=
  getattr_opt (user db self) "username" (λ u, Ret (user.username u)).

(** [self.capable_for_vote = b] *)
Definition set_capable_for_vote (self : player.t) (b : option bool)
  : player.t :=
  player.mk (player.id self) (player.user_id self) (player.room_id self)
            (player.is_host self) (player.character self) (player.seat self)
            (player.is_dead self) b.

End Player.

(** ** class Game *)

Module Game.

(** The string that [status] shows while no round is set. *)
Definition awaiting_instruction : string := "等待上帝指令".

(** [end(self)], with [now] the reading of [datetime.now()]:
    [self.finish_time = datetime.now()]
    [self.is_active = False]
    [self.current_round = -1] *)
Definition end_ (now : datetime) (self : game.t) : game.t :=
  let self := game.mk (game.id self) (game.room_id self) (game.template self)
                      (game.current_round self) (game.is_active self)
                      (game.start_time self) (Some now) in
  let self := game.mk (game.id self) (game.room_id self) (game.template self)
                      (game.current_round self) (Some false)
                      (game.start_time self) (game.finish_time self) in
  game.mk (game.id self) (game.room_id self) (game.template self)
          (VInt (-1)) (game.is_active self)
          (game.start_time self) (game.finish_time self).

(** [self.current_round = v] *)
Definition set_current_round (self : game.t) (v : value) : game.t :=
  game.mk (game.id self) (game.room_id self) (game.template self) v
          (game.is_active self) (game.start_time self) (game.finish_time self).

(** [if self.current_round: return self.current_round]
    [else: return "..."] *)
Definition status (self : game.t) : value :=
  if truthy (game.current_round self) then game.current_round self
  else VStr awaiting_instruction.

End Game.

(** ** class Vote *)

Module Vote.

(** [self.vote_for = n] *)
Definition set_vote_for (self : vote.t) (n : option Z) : vote.t :=
  vote.mk (vote.id self) (vote.game_id self) (vote.player_id self) n
          (vote.round self).

(** [if self.vote_for <= 0 or self.vote_for >= 13: self.vote_for = 0].
    The result is the vote after the call.  Ordering [None] against an
    integer is a [TypeError]. *)
Definition validate (self : vote.t) : res vote.t :=
  match vote.vote_for self with
  | None =>
      Raise (TypeError
        "'<=' not supported between instances of 'NoneType' and 'int'")
  | Some n =>
      if (n <=? 0) || (n >=? 13) then Ret (set_vote_for self (Some 0))
      else Ret self
  end.

(** [vote_from = Player.query.filter_by(id=self.player_id).first().seat] *)
Definition vote_from (db : database) (self : vote.t) : res (option Z) :=
  getattr_opt
    (first (filter (λ p, Some (player.id p) = vote.player_id self)
                   (players db)))
    "seat" (λ p, Ret (player.seat p)).

End Vote.

(** ** class Room *)

Module Room.

(** [players = db.relationship('Player', backref='room', lazy=True)] *)
Definition players (db : database) (self : room.t) : list player.t :=
  filter (λ p, player.room_id p = room.id self) (players db).

(** [game = db.relationship('Game', backref='room', uselist=False)] *)
Definition game (db : database) (self : room.t) : option game.t :=
  first (filter (λ g, game.room_id g = room.id self) (games db)).

(** The loop of [host]: [return p] at the first player whose flag is
    truthy; the [else] of the [for] runs when the players are exhausted. *)
Fixpoint host_loop (ps : list player.t) : res player.t :=
  match ps with
  | [] => Raise (ValueError "No host find")
  | p :: ps' => if truthy (player.is_host p) then Ret p else host_loop ps'
  end.

Definition host (db : database) (self : room.t) : res player.t :=
  host_loop (players db self).

(** [for p in self.players: if not p.is_host: players.append(p)] *)
Definition normal_players (db : database) (self : room.t) : list player.t :=
  filter (λ p, negb (truthy (player.is_host p)) = true) (players db self).

(** One turn of the loop of [available_seats]:
    [if p.seat: seats -= set([p.seat])] *)
Definition take_seat (seats : gset Z) (p : player.t) : gset Z :=
  match player.seat p with
  | Some s => if truthy s then seats ∖ {[ s ]} else seats
  | None => seats
  end.

(** [seats = set(range(1, 13))], the loop, [return list(seats)] *)
Definition available_seats (db : database) (self : room.t) : list Z :=
  let seats : gset Z := list_to_set (range 1 13) in
  let seats := foldl take_seat seats (normal_players db self) in
  elements seats.

(** [for p in self.players: if not p.is_host and p.seat: players.append(p)] *)
Definition seated_players (db : database) (self : room.t) : list player.t :=
  filter (λ p, negb (truthy (player.is_host p)) && truthy (player.seat p)
               = true)
         (players db self).

(** The names that the body of [class Room] binds, in source order.  The
    backrefs that the relationships declare ([user], [room], [game],
    [player]) are attributes of [Player], [Game] and [Vote], none of
    [Room]. *)
Definition members : list string :=
  [ "id"; "name"; "game"; "players"; "__repr__"; "host"; "normal_players";
    "available_seats"; "seated_players"; "is_full"; "template"; "survivals";
    "allow_votes"; "disable_votes"; "set_round"; "view_vote_results" ].

Section AttributeLookup.

(** What the names bound on a room evaluate to. *)
Variable bound : database → room.t → string → res value.

(** [self.<attr>] by name: a name that the class does not bind is an
    [AttributeError]. *)
Definition getattr (db : database) (self : room.t) (attr : string)
  : res value :=
  if bool_decide (attr ∈ members) then bound db self attr
  else Raise (AttributeError "Room" attr).

(** [if len(self.seats == 0): return True]
    [else: return False] *)
Definition is_full (db : database) (self : room.t) : res bool :=
  seats ← getattr db self "seats";
  n ← len (eq_zero seats);
  if truthy n then Ret true else Ret false.

End AttributeLookup.

(** [for p in self.seated_players: if not p.is_dead: survivals.append(p)] *)
Definition survivals (db : database) (self : room.t) : list player.t :=
  filter (λ p, negb (truthy (player.is_dead p)) = true)
         (seated_players db self).

(** One entry of the result of [view_vote_results]: the dict
    [{'vote_from': ..., 'vote_for': ...}], keys in insertion order. *)
Definition vote_entry (vote_from vote_for : option Z)
  : list (string * option Z) :=
  [ ("vote_from", vote_from); ("vote_for", vote_for) ].

(** The loop of [view_vote_results] over the seated players, [results]
    being the list built so far:
    [vote = p.votes.filter_by(round=round_name).first()]
    [results.append({'vote_from': vote.vote_from, 'vote_for': vote.vote_for})] *)
Fixpoint view_vote_results_loop (db : database) (round_name : string)
    (ps : list player.t) (results : list (list (string * option Z)))
  : res (list (list (string * option Z))) :=
  match ps with
  | [] => Ret results
  | p :: ps' =>
      let vote := first (Player.votes_in_round db p round_name) in
      vote_from ← getattr_opt vote "vote_from" (Vote.vote_from db);
      vote_for ← getattr_opt vote "vote_for" (λ v, Ret (vote.vote_for v));
      view_vote_results_loop db round_name ps'
        (results ++ [vote_entry vote_from vote_for])
  end.

Definition view_vote_results (db : database) (self : room.t)
    (round_name : string) : res (list (list (string * option Z))) :=
  view_vote_results_loop db round_name (seated_players db self) [].

(** [return self.game.template] *)
Definition template (db : database) (self : room.t) : res string :=
  getattr_opt (game db self) "template" (λ g, Ret (game.template g)).

(** [return f"{self.name}: {self.game.template}"] *)
Definition repr (db : database) (self : room.t) : res string :=
  t ← getattr_opt (game db self) "template" (λ g, Ret (game.template g));
  Ret (room.name self +:+ ": " +:+ t).

(** What [db.session.commit()] writes for a player [p] whose
    [capable_for_vote] was assigned [b]: the row of [player] with the id of
    [p] gets the new flag. *)
Definition store_capable_for_vote (b : bool) (db : database) (p : player.t)
  : database :=
  update_players
    (λ q, if bool_decide (player.id q = player.id p)
          then Player.set_capable_for_vote q (Some b) else q)
    db.

(** [for p in self.survivals: p.capable_for_vote = True]
    [db.session.commit()] *)
Definition allow_votes (db : database) (self : room.t) : database :=
  foldl (store_capable_for_vote true) db (survivals db self).

(** [for p in self.survivals: p.capable_for_vote = False]
    [db.session.commit()] *)
Definition disable_votes (db : database) (self : room.t) : database :=
  foldl (store_capable_for_vote false) db (survivals db self).

(** What the commit writes for a game [g] whose [current_round] was
    assigned [v]. *)
Definition store_current_round (v : value) (db : database) (g : game.t)
  : database :=
  update_games
    (λ h, if bool_decide (game.id h = game.id g)
          then Game.set_current_round h v else h)
    db.

(** [self.game.current_round = round_name]
    [db.session.commit()]
    Assigning an attribute of [None] is an [AttributeError]. *)
Definition set_round (db : database) (self : room.t) (round_name : string)
  : res database :=
  getattr_opt (game db self) "current_round"
              (λ g, Ret (store_current_round (VStr round_name) db g)).

End Room.

(** ** The vocabulary of the properties *)

(** The seats that the normal players of a room hold: the [seat] of each
    normal player that has one. *)
Definition occupied_seats (db : database) (self : room.t) : gset Z :=
  list_to_set (omap player.seat (Room.normal_players db self)).


(** [id] is the primary key of [user]. *)
Definition user_primary_key (db : database) : Prop :=
  NoDup (user.id <$> users db).

(** The columns of a survivor of room [r]: a row of the room that is not a
    host, has a seat other than 0 and is not dead. *)
Definition survives (r : room.t) (q : player.t) : bool :=
  bool_decide (player.room_id q = room.id r)
  && negb (truthy (player.is_host q))
  && truthy (player.seat q)
  && negb (truthy (player.is_dead q)).

(** The flag [b] written to the rows whose id is among [ids]. *)
Definition mark (b : bool) (ids : list Z) (q : player.t) : player.t :=
  if bool_decide (player.id q ∈ ids)
  then Player.set_capable_for_vote q (Some b) else q.

(** [q'] is the row [q] but for its [capable_for_vote]. *)
Definition same_but_flag (q q' : player.t) : Prop :=
  q' = Player.set_capable_for_vote q (player.capable_for_vote q').

(** Between [db] and [db'] nothing but [capable_for_vote] flags changed. *)
Definition only_flags_changed (db db' : database) : Prop :=
  users db' = users db ∧ rooms db' = rooms db
  ∧ games db' = games db ∧ votes db' = votes db
  ∧ Forall2 same_but_flag (players db) (players db')
  ∧ ∀ r, Room.available_seats db' r = Room.available_seats db r.

(** [id] is the primary key of [game]. *)
Definition game_primary_key (db : database) : Prop :=
  NoDup (game.id <$> games db).


(** ** Sample stores *)

Module Sample.

Definition lobby : room.t := room.mk 1 "lobby".

Definition seated (id seat : Z) : player.t :=
  player.mk id (100 + id) 1 (Some false) None (Some seat) (Some false)
            (Some false).

Definition moderator (id : Z) : player.t :=
  player.mk id (100 + id) 1 (Some true) None None (Some false) (Some false).

Definition ballot (id player_id vote_for : Z) (round : string) : vote.t :=
  vote.mk id (Some 1) (Some player_id) (Some vote_for) (Some round).

Definition store (ps : list player.t) (vs : list vote.t) : database :=
  mk_database [] [lobby] ps [] vs.

(** A room with a normal player listed before two hosts. *)
Definition two_hosts : database :=
  store [seated 1 4; moderator 2; moderator 3] [].

(** A room without a host. *)
Definition no_host : database := store [seated 1 4; seated 2 5] [].

(** A host and normal players at the seats 1, 3 and 5. *)
Definition seats_1_3_5 : database :=
  store [moderator 1; seated 2 1; seated 3 3; seated 4 5] [].

(** A normal player whose seat column holds 13. *)
Definition seat_13 : database := store [moderator 1; seated 2 13] [].

(** Two seated players, each with one vote in round1. *)
Definition round1_complete : database :=
  store [moderator 1; seated 2 1; seated 3 3]
        [ballot 1 2 3 "round1"; ballot 2 3 1 "round1"; ballot 3 2 5 "round2"].


Definition alice : user.t := user.mk 7 (Some "alice") None None.

Definition running : game.t :=
  game.mk 1 1 "standard" (VStr "night1") (Some true) (Some 1000) None.

(** A game whose round was named with the very text of the placeholder. *)
Definition placeholder_round : game.t :=
  game.mk 1 1 "standard" (VStr Game.awaiting_instruction) (Some true)
          (Some 1000) None.

Definition fallen (id seat : Z) : player.t :=
  player.mk id (100 + id) 1 (Some false) None (Some seat) (Some true)
            (Some true).

(** A room in play: a host, two living players, one dead player who could
    vote before dying, and the game of the room. *)
Definition in_play : database :=
  mk_database [user.mk 102 (Some "bob") None None] [lobby]
              [moderator 1; seated 2 1; seated 3 3; fallen 4 5]
              [running] [].

(** Two rooms of the same name; carol plays in the second only. *)
Definition carol : user.t := user.mk 9 (Some "carol") None None.

Definition same_name : database :=
  mk_database [carol] [lobby; room.mk 2 "lobby"]
              [player.mk 5 9 2 (Some false) None (Some 2) None None] [] [].

(** A player in two votes of the same round, and a vote of no player. *)
Definition voted_twice : database :=
  store [moderator 1; seated 2 1]
        [ballot 1 2 3 "round1"; ballot 2 2 7 "round1"; ballot 3 8 1 "round1"].

End Sample.

(** ** class Room: [host] *)

Section Host.

Lemma truthy_is_host (p : player.t) :
  truthy (player.is_host p) = true ↔ player.is_host p = Some true.
Proof. destruct (player.is_host p) as [[]|]; cbv; split; congruence. Qed.

Lemma host_loop_skip (l1 l2 : list player.t) :
  Forall (λ q, player.is_host q ≠ Some true) l1 →
  Room.host_loop (l1 ++ l2) = Room.host_loop l2.
Proof.
  induction 1 as [|q l1 Hq _ IH]; [done|]. cbn [app Room.host_loop].
  destruct (truthy (player.is_host q)) eqn:E; [|exact IH].
  apply truthy_is_host in E. contradiction.
Qed.

Lemma host_loop_exhausted (ps : list player.t) :
  Forall (λ q, player.is_host q ≠ Some true) ps →
  Room.host_loop ps = Raise (ValueError "No host find").
Proof.
  intros H. rewrite <- (app_nil_r ps). by rewrite host_loop_skip.
Qed.

Lemma host_loop_cases (ps : list player.t) :
  (∃ p, Room.host_loop ps = Ret p ∧ p ∈ ps ∧ player.is_host p = Some true)
  ∨ Room.host_loop ps = Raise (ValueError "No host find").
Proof.
  induction ps as [|q ps IH]; [by right|]. cbn [Room.host_loop].
  destruct (truthy (player.is_host q)) eqn:E.
  - left. exists q. apply truthy_is_host in E. split_and!; [done| |done].
    apply list_elem_of_here.
  - destruct IH as [(p & ? & ? & ?)|?]; [left|by right].
    exists p. split_and!; [done| |done]. by apply list_elem_of_further.
Qed.

End Host.

(** C1. [Room.host] returns the first player of the room whose [is_host] is
    true, whenever the room has one; it raises the "no host" [ValueError]
    when no player of the room is a host; and these are its only outcomes:
    a player row of the room that is a host, or that error, never [None]. *)
Theorem host_first_or_no_host_error (db : database) (self : room.t) :
  (∀ l1 p l2,
      Room.players db self = l1 ++ p :: l2 →
      Forall (λ q, player.is_host q ≠ Some true) l1 →
      player.is_host p = Some true →
      Room.host db self = Ret p)
  ∧ (Forall (λ q, player.is_host q ≠ Some true) (Room.players db self) →
     Room.host db self = Raise (ValueError "No host find"))
  ∧ ((∃ p, Room.host db self = Ret p ∧ p ∈ Room.players db self
           ∧ player.is_host p = Some true)
     ∨ Room.host db self = Raise (ValueError "No host find")).
Proof.
  unfold Room.host. split_and!.
  - intros l1 p l2 -> Hl1 Hp. rewrite host_loop_skip by done.
    cbn [Room.host_loop]. apply truthy_is_host in Hp. by rewrite Hp.
  - apply host_loop_exhausted.
  - apply host_loop_cases.
Qed.

Lemma host_first_or_no_host_error_witness :
  Room.host Sample.two_hosts Sample.lobby = Ret (Sample.moderator 2)
  ∧ Room.host Sample.no_host Sample.lobby = Raise (ValueError "No host find").
Proof.
  split.
  - apply (proj1 (host_first_or_no_host_error Sample.two_hosts Sample.lobby)
             [Sample.seated 1 4] (Sample.moderator 2) [Sample.moderator 3]).
    + reflexivity.
    + repeat constructor. discriminate.
    + reflexivity.
  - apply (proj1 (proj2
             (host_first_or_no_host_error Sample.no_host Sample.lobby))).
    repeat constructor; discriminate.
Defined.

(** ** class Room: [is_full] *)

(** No member of [class Room] is called [seats]. *)
Lemma seats_not_a_member : "seats" ∉ Room.members.
Proof.
  unfold Room.members. intros H.
  repeat (apply elem_of_cons in H as [H|H]; [discriminate H|]).
  by apply elem_of_nil in H.
Qed.

Lemma getattr_seats (bound : database → room.t → string → res value)
    (db : database) (self : room.t) :
  Room.getattr bound db self "seats" = Raise (AttributeError "Room" "seats").
Proof.
  unfold Room.getattr. rewrite bool_decide_eq_false_2; [done|].
  apply seats_not_a_member.
Qed.

(** The operand of [len] in [is_full] is a comparison, which has no length:
    the body could not return even if [seats] were bound. *)
Lemma len_eq_zero_raises (v : value) :
  ∃ msg, len (eq_zero v) = Raise (TypeError msg).
Proof. destruct v; cbn; eauto. Qed.

(** C2. Evaluating [is_full] raises for every room, whatever the store and
    whatever the bound names evaluate to: [self.seats] is an
    [AttributeError], no member of [Room] having that name; so no room has
    a boolean [is_full]. *)
Theorem is_full_always_raises
    (bound : database → room.t → string → res value)
    (db : database) (self : room.t) :
  Room.is_full bound db self = Raise (AttributeError "Room" "seats")
  ∧ ∀ b : bool, Room.is_full bound db self ≠ Ret b.
Proof.
  assert (Room.is_full bound db self = Raise (AttributeError "Room" "seats"))
    as E by (unfold Room.is_full; by rewrite getattr_seats).
  split; [exact E|]. intros b. rewrite E. discriminate.
Qed.

(** ** class Game: [end] and [status] *)

(** C5. [end] stores the reading of the clock in [finish_time], [False] in
    [is_active] and [-1] in [current_round]; [id], [room_id], [template]
    and [start_time] keep their values. *)
Theorem end_sets_three_fields (now : datetime) (g : game.t) :
  game.finish_time (Game.end_ now g) = Some now
  ∧ game.is_active (Game.end_ now g) = Some false
  ∧ game.current_round (Game.end_ now g) = VInt (-1)
  ∧ game.id (Game.end_ now g) = game.id g
  ∧ game.room_id (Game.end_ now g) = game.room_id g
  ∧ game.template (Game.end_ now g) = game.template g
  ∧ game.start_time (Game.end_ now g) = game.start_time g.
Proof. by destruct g. Qed.

Lemma status_truthy (g : game.t) :
  truthy (game.current_round g) = true → Game.status g = game.current_round g.
Proof. unfold Game.status. by intros ->. Qed.

Lemma status_falsy (g : game.t) :
  truthy (game.current_round g) = false →
  Game.status g = VStr Game.awaiting_instruction.
Proof. unfold Game.status. by intros ->. Qed.

(** C9, as the code has it.  After [end], [status] is the integer [-1]
    that [end] left in [current_round], which is truthy, and not the
    placeholder string.  In general [status] is [current_round] itself
    whenever that is truthy and the placeholder when [current_round] is
    falsy; a [status] that differs from [current_round] arises only where
    [current_round] is falsy, and a [status] equal to the placeholder only
    where [current_round] is falsy or is the placeholder string itself. *)
Theorem status_after_end (now : datetime) (g : game.t) :
  Game.status (Game.end_ now g) = VInt (-1)
  ∧ truthy (VInt (-1)) = true
  ∧ Game.status (Game.end_ now g) ≠ VStr Game.awaiting_instruction
  ∧ (truthy (game.current_round g) = true →
     Game.status g = game.current_round g)
  ∧ (truthy (game.current_round g) = false →
     Game.status g = VStr Game.awaiting_instruction)
  ∧ (Game.status g ≠ game.current_round g →
     truthy (game.current_round g) = false)
  ∧ (Game.status g = VStr Game.awaiting_instruction →
     truthy (game.current_round g) = false
     ∨ game.current_round g = VStr Game.awaiting_instruction).
Proof.
  split_and!; [done|done|done|apply status_truthy|apply status_falsy| |].
  - intros H. destruct (truthy (game.current_round g)) eqn:E; [|done].
    by apply status_truthy in E.
  - intros H. destruct (truthy (game.current_round g)) eqn:E; [|by left].
    right. apply status_truthy in E. congruence.
Qed.

(** C9 as stated fails on a game whose [current_round] is the placeholder
    string: [status] returns the placeholder although [current_round] is
    set and truthy. *)
Lemma status_placeholder_counterexample :
  ¬ (Game.status Sample.placeholder_round = VStr Game.awaiting_instruction →
     truthy (game.current_round Sample.placeholder_round) = false).
Proof. intros H. specialize (H eq_refl). vm_compute in H. discriminate H. Qed.

Lemma status_after_end_witness :
  Game.status Sample.running = VStr "night1"
  ∧ Game.status (Game.end_ 2000 Sample.running) = VInt (-1).
Proof.
  split.
  - apply (proj1 (proj2 (proj2 (proj2 (status_after_end 2000 Sample.running))))).
    reflexivity.
  - apply (proj1 (status_after_end 2000 Sample.running)).
Defined.

(** ** class Vote: [validate] *)

(** C6. On a vote whose [vote_for] is an integer [n], [validate] stores 0
    in [vote_for] when [n] is outside 1..12 and leaves the vote as it is
    when [n] is within 1..12; no other column changes. *)
Theorem validate_clamps (v : vote.t) (n : Z) :
  vote.vote_for v = Some n →
  ((n < 1 ∨ 12 < n) → Vote.validate v = Ret (Vote.set_vote_for v (Some 0)))
  ∧ (1 ≤ n ≤ 12 → Vote.validate v = Ret v).
Proof.
  intros Hn. unfold Vote.validate. rewrite Hn. split; intros H.
  - destruct (n <=? 0) eqn:E1; [done|]. destruct (n >=? 13) eqn:E2; [done|].
    lia.
  - destruct (n <=? 0) eqn:E1; [lia|]. destruct (n >=? 13) eqn:E2; [lia|].
    done.
Qed.

Lemma validate_clamps_witness :
  Vote.validate (Sample.ballot 1 2 15 "round1")
    = Ret (Sample.ballot 1 2 0 "round1")
  ∧ Vote.validate (Sample.ballot 1 2 7 "round1")
    = Ret (Sample.ballot 1 2 7 "round1").
Proof.
  split.
  - apply (proj1 (validate_clamps (Sample.ballot 1 2 15 "round1") 15 eq_refl)).
    lia.
  - apply (proj2 (validate_clamps (Sample.ballot 1 2 7 "round1") 7 eq_refl)).
    lia.
Defined.

(** A vote whose [vote_for] is [None] cannot be validated: the comparison
    raises. *)
Lemma validate_none (v : vote.t) :
  vote.vote_for v = None → ∃ msg, Vote.validate v = Raise (TypeError msg).
Proof. unfold Vote.validate. intros ->. eauto. Qed.

Lemma validate_fixed_point (v v1 : vote.t) :
  Vote.validate v = Ret v1 → Vote.validate v1 = Ret v1.
Proof.
  unfold Vote.validate. destruct (vote.vote_for v) as [n|] eqn:Hn; [|done].
  destruct ((n <=? 0) || (n >=? 13)) eqn:E; intros [= <-].
  - done.
  - by rewrite Hn, E.
Qed.

(** C7. [validate] is idempotent: running it a second time gives the
    outcome of running it once, and a vote that [validate] returned is
    returned unchanged, with the same [vote_for], by a second call. *)
Theorem validate_idempotent (v : vote.t) :
  Vote.validate v ≫= Vote.validate = Vote.validate v
  ∧ ∀ v1, Vote.validate v = Ret v1 →
          Vote.validate v1 = Ret v1
          ∧ ∀ v2, Vote.validate v1 = Ret v2 →
                  vote.vote_for v2 = vote.vote_for v1.
Proof.
  split.
  - destruct (Vote.validate v) as [v1|e] eqn:E; [|done].
    exact (validate_fixed_point _ _ E).
  - intros v1 E. pose proof (validate_fixed_point _ _ E) as E1.
    split; [done|]. intros v2. rewrite E1. by intros [= <-].
Qed.

Lemma validate_idempotent_witness :
  Vote.validate (Sample.ballot 1 2 0 "round1")
    = Ret (Sample.ballot 1 2 0 "round1").
Proof.
  apply (proj2 (validate_idempotent (Sample.ballot 1 2 15 "round1"))
           (Sample.ballot 1 2 0 "round1")).
  reflexivity.
Defined.

(** ** class User: [is_host] *)

(** C10. For a user without any player row, [is_host] fails: [first()]
    yields [None] and [None.is_host] is an [AttributeError] on [NoneType];
    it does not return [False]. *)
Theorem user_is_host_without_player (db : database) (u : user.t) :
  User.role db u = [] →
  User.is_host db u = Raise (AttributeError none_type "is_host")
  ∧ is_null_dereference (AttributeError none_type "is_host") = true
  ∧ User.is_host db u ≠ Ret false.
Proof.
  intros H. unfold User.is_host. rewrite H. by split_and!.
Qed.

Lemma user_is_host_without_player_witness :
  User.is_host Sample.two_hosts Sample.alice
  = Raise (AttributeError none_type "is_host").
Proof.
  apply (user_is_host_without_player Sample.two_hosts Sample.alice).
  reflexivity.
Defined.

(** ** class Room: [available_seats] *)

Section Seats.

Lemma elem_of_range (a b x : Z) : x ∈ range a b ↔ a ≤ x < b.
Proof.
  unfold range. rewrite list_elem_of_fmap. split.
  - intros (i & -> & Hi). apply elem_of_seq in Hi. lia.
  - intros H. exists (Z.to_nat (x - a)). split; [lia|].
    apply elem_of_seq. lia.
Qed.

(** One turn of the loop removes the seat of the player, unless that is
    [None] or 0. *)
Lemma elem_of_take_seat (seats : gset Z) (q : player.t) (x : Z) :
  x ∈ Room.take_seat seats q
  ↔ x ∈ seats ∧ ¬ (x ≠ 0 ∧ player.seat q = Some x).
Proof.
  unfold Room.take_seat. destruct (player.seat q) as [s|].
  - unfold truthy, truthy_Z. destruct (Z.eqb_spec s 0) as [->|Hs]; cbn.
    + split; [intros H; split; [done|]; intros [? [= ?]]; congruence|].
      by intros [? _].
    + rewrite elem_of_difference, elem_of_singleton. split.
      * intros [? ?]. split; [done|]. intros [_ [= ?]]. congruence.
      * intros [? Hn]. split; [done|]. intros ->. apply Hn. done.
  - split; [intros H; split; [done|]; by intros [_ ?]|by intros [? _]].
Qed.

(** The seats that the loop of [available_seats] leaves. *)
Lemma elem_of_take_seats (ps : list player.t) (seats : gset Z) (x : Z) :
  x ∈ foldl Room.take_seat seats ps
  ↔ x ∈ seats ∧ ¬ (x ≠ 0 ∧ ∃ p, p ∈ ps ∧ player.seat p = Some x).
Proof.
  revert seats. induction ps as [|q ps IH]; intros seats; cbn [foldl].
  - split; [intros H; split; [done|]|by intros [? _]].
    intros (_ & p & Hp & _). by apply elem_of_nil in Hp.
  - rewrite IH, elem_of_take_seat. split.
    + intros [[Hx Hq] Hn]. split; [done|]. intros (Hx0 & p & Hp & Hps).
      apply elem_of_cons in Hp as [->|Hp]; [by apply Hq|].
      apply Hn. eauto.
    + intros [Hx Hn]. split_and!; [done| |].
      * intros [? ?]. apply Hn. split; [done|]. exists q.
        split; [apply list_elem_of_here|done].
      * intros (? & p & ? & ?). apply Hn. split; [done|]. exists p.
        split; [by apply list_elem_of_further|done].
Qed.

Lemma elem_of_available_seats (db : database) (self : room.t) (x : Z) :
  x ∈ Room.available_seats db self
  ↔ 1 ≤ x ≤ 12
    ∧ ¬ ∃ p, p ∈ Room.normal_players db self ∧ player.seat p = Some x.
Proof.
  unfold Room.available_seats. rewrite elem_of_elements, elem_of_take_seats.
  rewrite elem_of_list_to_set, elem_of_range. split.
  - intros [Hx Hn]. split; [lia|]. intros H. apply Hn. split; [lia|done].
  - intros [Hx Hn]. split; [lia|]. intros [_ H]. by apply Hn.
Qed.

Lemma elem_of_occupied_seats (db : database) (self : room.t) (x : Z) :
  x ∈ occupied_seats db self
  ↔ ∃ p, p ∈ Room.normal_players db self ∧ player.seat p = Some x.
Proof.
  unfold occupied_seats. rewrite elem_of_list_to_set, list_elem_of_omap.
  done.
Qed.

End Seats.

(** C3, as the code has it.  The set of [available_seats] and the set of
    seats held by the normal players are disjoint in every room; their
    union is {1..12} when every seat held by a normal player of the room
    lies in 1..12. *)
Theorem available_and_occupied_seats (db : database) (self : room.t) :
  list_to_set (Room.available_seats db self) ## occupied_seats db self
  ∧ ((∀ p s, p ∈ Room.normal_players db self → player.seat p = Some s →
             1 ≤ s ≤ 12) →
     list_to_set (Room.available_seats db self) ∪ occupied_seats db self
     = (list_to_set (range 1 13) : gset Z)).
Proof.
  split.
  - apply elem_of_disjoint. intros x Ha Ho.
    apply elem_of_list_to_set, elem_of_available_seats in Ha as [_ Ha].
    apply elem_of_occupied_seats in Ho. by apply Ha.
  - intros Hrange. apply set_eq. intros x.
    rewrite elem_of_union, !elem_of_list_to_set, elem_of_available_seats,
      elem_of_occupied_seats, elem_of_range.
    split.
    + intros [[Hx _]|(p & Hp & Hs)]; [lia|].
      specialize (Hrange p x Hp Hs). lia.
    + intros Hx.
      destruct (decide (x ∈ occupied_seats db self)) as [Ho|Ho].
      * right. by apply elem_of_occupied_seats.
      * left. split; [lia|]. intros H. apply Ho.
        by apply elem_of_occupied_seats.
Qed.

Lemma available_and_occupied_seats_witness :
  list_to_set (Room.available_seats Sample.seats_1_3_5 Sample.lobby)
  ∪ occupied_seats Sample.seats_1_3_5 Sample.lobby
  = (list_to_set (range 1 13) : gset Z).
Proof.
  apply (proj2 (available_and_occupied_seats Sample.seats_1_3_5 Sample.lobby)).
  intros p s Hp Hs.
  assert (Room.normal_players Sample.seats_1_3_5 Sample.lobby
          = [Sample.seated 2 1; Sample.seated 3 3; Sample.seated 4 5]) as E
    by reflexivity.
  rewrite E in Hp.
  repeat (apply elem_of_cons in Hp as [->|Hp];
          [injection Hs as <-; lia|]).
  by apply elem_of_nil in Hp.
Defined.

(** C3 as stated fails on a room in which a normal player holds seat 13:
    13 is in the union and not in {1..12}. *)
Lemma seats_union_counterexample :
  ¬ (list_to_set (Room.available_seats Sample.seat_13 Sample.lobby)
     ## occupied_seats Sample.seat_13 Sample.lobby
     ∧ list_to_set (Room.available_seats Sample.seat_13 Sample.lobby)
       ∪ occupied_seats Sample.seat_13 Sample.lobby
       = (list_to_set (range 1 13) : gset Z)).
Proof.
  intros [_ H].
  assert (13 ∈ (list_to_set (range 1 13) : gset Z)) as H13.
  { rewrite <- H. apply elem_of_union_r, elem_of_occupied_seats.
    exists (Sample.seated 2 13). split; [|reflexivity].
    assert (Room.normal_players Sample.seat_13 Sample.lobby
            = [Sample.seated 2 13]) as -> by reflexivity.
    apply list_elem_of_here. }
  apply elem_of_list_to_set, elem_of_range in H13. lia.
Qed.

(** ** class Room: [view_vote_results] *)

Section VoteResults.

Variable db : database.









End VoteResults.



(** The example of the specification evaluates to those two entries. *)
Example view_vote_results_round1 :
  Room.view_vote_results Sample.round1_complete Sample.lobby "round1"
  = Ret [ [ ("vote_from", Some 1); ("vote_for", Some 3) ];
          [ ("vote_from", Some 3); ("vote_for", Some 1) ] ].
Proof. reflexivity. Qed.

(** ** The room seated at 1, 3 and 5 *)

(** C8, on the code.  In the room whose normal players sit at 1, 3 and 5,
    [available_seats] holds exactly 2, 4, 6, 7, 8, 9, 10, 11 and 12, in some
    order; [is_full] does not evaluate to [False] there: it raises the
    [AttributeError] of [self.seats]. *)
Theorem seats_1_3_5_available_and_is_full :
  occupied_seats Sample.seats_1_3_5 Sample.lobby = {[ 1; 3; 5 ]}
  ∧ (list_to_set (Room.available_seats Sample.seats_1_3_5 Sample.lobby)
     : gset Z) = {[ 2; 4; 6; 7; 8; 9; 10; 11; 12 ]}
  ∧ ∀ bound,
      Room.is_full bound Sample.seats_1_3_5 Sample.lobby
      = Raise (AttributeError "Room" "seats")
      ∧ Room.is_full bound Sample.seats_1_3_5 Sample.lobby ≠ Ret false.
Proof.
  split_and!; [compute_done|compute_done|].
  intros bound. unfold Room.is_full. rewrite getattr_seats.
  split; [done|discriminate].
Qed.

(** ** The players of a room: hosts, normal, seated and surviving *)

Lemma truthy_seat (p : player.t) :
  truthy (player.seat p) = true ↔ ∃ s, player.seat p = Some s ∧ s ≠ 0.
Proof.
  destruct (player.seat p) as [s|]; cbv [truthy truthy_option truthy_Z].
  - rewrite negb_true_iff, Z.eqb_neq. split; [by exists s|].
    by intros (? & [= <-] & ?).
  - split; [done|]. by intros (? & ? & _).
Qed.

Lemma not_truthy_flag (o : option bool) :
  negb (truthy o) = true ↔ o ≠ Some true.
Proof. destruct o as [[]|]; cbv; split; congruence. Qed.

Lemma survives_columns (r : room.t) (q : player.t) :
  survives r q = true
  ↔ player.room_id q = room.id r ∧ player.is_host q ≠ Some true
    ∧ (∃ s, player.seat q = Some s ∧ s ≠ 0) ∧ player.is_dead q ≠ Some true.
Proof.
  unfold survives. rewrite !andb_true_iff, bool_decide_eq_true.
  rewrite !not_truthy_flag, truthy_seat. tauto.
Qed.

Lemma elem_of_seated_players (db : database) (r : room.t) (p : player.t) :
  p ∈ Room.seated_players db r
  ↔ p ∈ players db ∧ player.room_id p = room.id r
    ∧ player.is_host p ≠ Some true ∧ ∃ s, player.seat p = Some s ∧ s ≠ 0.
Proof.
  unfold Room.seated_players, Room.players.
  rewrite !list_elem_of_filter, andb_true_iff, not_truthy_flag, truthy_seat.
  tauto.
Qed.

Lemma survivals_filter (db : database) (r : room.t) :
  Room.survivals db r = filter (λ q, survives r q = true) (players db).
Proof.
  unfold Room.survivals, Room.seated_players, Room.players.
  rewrite !list_filter_filter. apply list_filter_iff. intros q.
  unfold survives. rewrite !andb_true_iff, bool_decide_eq_true. tauto.
Qed.

(** X1. The player that [host] returns is a player of the room and is left
    out of [normal_players], [seated_players] and [survivals]: the host
    never counts as a participant, even with a seat. *)
Theorem host_is_no_participant (db : database) (r : room.t) (p : player.t) :
  Room.host db r = Ret p →
  p ∈ Room.players db r
  ∧ (p ∉ Room.normal_players db r)
  ∧ (p ∉ Room.seated_players db r)
  ∧ (p ∉ Room.survivals db r).
Proof.
  unfold Room.host. intros E.
  destruct (host_loop_cases (Room.players db r)) as [(q & Eq & Hq & Hh)|Eq];
    rewrite E in Eq; [|done].
  injection Eq as <-.
  assert (p ∉ Room.seated_players db r) as Hs.
  { intros (_ & _ & ? & _)%elem_of_seated_players. done. }
  split_and!; [done| |done|].
  - unfold Room.normal_players.
    intros [?%not_truthy_flag _]%list_elem_of_filter. done.
  - unfold Room.survivals. by intros [_ ?]%list_elem_of_filter.
Qed.

Lemma host_is_no_participant_witness :
  Sample.moderator 1 ∉ Room.survivals Sample.in_play Sample.lobby.
Proof.
  apply (host_is_no_participant Sample.in_play Sample.lobby
           (Sample.moderator 1)).
  reflexivity.
Defined.

(** X2. Membership in [seated_players] and in [survivals], by columns: a
    seated player is a row of the room that is not a host and whose seat is
    an integer other than 0 (a seat of 0 counts as no seat, although
    [is_seated] holds for it); a survivor is a seated player whose
    [is_dead] is not [True] (an unset [is_dead] counts as alive). *)
Theorem seated_and_surviving_by_columns
    (db : database) (r : room.t) (p : player.t) :
  (p ∈ Room.seated_players db r
   ↔ p ∈ Room.normal_players db r
     ∧ ∃ s, player.seat p = Some s ∧ s ≠ 0)
  ∧ (p ∈ Room.survivals db r
     ↔ p ∈ Room.seated_players db r ∧ player.is_dead p ≠ Some true)
  ∧ (p ∈ Room.seated_players db r → Player.is_seated p = true)
  ∧ (player.seat p = Some 0 →
     Player.is_seated p = true ∧ p ∉ Room.seated_players db r).
Proof.
  split_and!.
  - rewrite elem_of_seated_players. unfold Room.normal_players, Room.players.
    rewrite !list_elem_of_filter, not_truthy_flag. tauto.
  - unfold Room.survivals. rewrite list_elem_of_filter, not_truthy_flag.
    tauto.
  - intros (_ & _ & _ & s & Hs & _)%elem_of_seated_players.
    unfold Player.is_seated. rewrite Hs. done.
  - intros Hs. unfold Player.is_seated. rewrite Hs. split; [done|].
    intros (_ & _ & _ & s & Hs' & ?)%elem_of_seated_players. congruence.
Qed.

(** ** Counting the available seats *)

Lemma take_seat_subseteq (seats : gset Z) (p : player.t) :
  Room.take_seat seats p ⊆ seats.
Proof. intros x [? _]%elem_of_take_seat. done. Qed.

Lemma size_remove_seat (seats : gset Z) (s : Z) :
  (size seats ≤ size (seats ∖ {[ s ]}) + 1)%nat.
Proof.
  rewrite size_difference_alt.
  assert (size (seats ∩ {[ s ]}) ≤ 1)%nat; [|lia].
  rewrite <- (size_singleton (C:=gset Z) s). apply subseteq_size.
  by intros x [_ ?]%elem_of_intersection.
Qed.

Lemma seated_players_of_normal (db : database) (r : room.t) :
  Room.seated_players db r
  = filter (λ p, truthy (player.seat p) = true) (Room.normal_players db r).
Proof.
  unfold Room.seated_players, Room.normal_players.
  rewrite list_filter_filter. apply list_filter_iff. intros p.
  rewrite andb_true_iff. tauto.
Qed.

Lemma size_take_seats_lower (ps : list player.t) (seats : gset Z) :
  (size seats
   ≤ size (foldl Room.take_seat seats ps)
     + length (filter (λ p, truthy (player.seat p) = true) ps))%nat.
Proof.
  revert seats. induction ps as [|p ps IH]; intros seats; cbn [foldl].
  - cbn. lia.
  - rewrite filter_cons. specialize (IH (Room.take_seat seats p)).
    unfold Room.take_seat in *. destruct (player.seat p) as [s|].
    + change (truthy (Some s)) with (truthy s).
      destruct (truthy s) eqn:E.
      * rewrite decide_True by done. cbn [length].
        pose proof (size_remove_seat seats s). lia.
      * rewrite decide_False by done. done.
    + rewrite decide_False by done. done.
Qed.

Lemma size_take_seats_upper (ps : list player.t) (seats : gset Z) :
  (size (foldl Room.take_seat seats ps) ≤ size seats)%nat.
Proof.
  revert seats. induction ps as [|p ps IH]; intros seats; cbn [foldl]; [done|].
  etrans; [apply IH|]. apply subseteq_size, take_seat_subseteq.
Qed.

Lemma size_take_seats_exact (ps : list player.t) (seats : gset Z) :
  NoDup (player.seat <$> filter (λ p, truthy (player.seat p) = true) ps) →
  (∀ p s, p ∈ ps → player.seat p = Some s → s ≠ 0 → s ∈ seats) →
  (size (foldl Room.take_seat seats ps)
   + length (filter (λ p, truthy (player.seat p) = true) ps))%nat
  = size seats.
Proof.
  revert seats. induction ps as [|p ps IH]; intros seats Hnd Hin; cbn [foldl].
  - cbn. lia.
  - rewrite filter_cons in Hnd |- *.
    assert (∀ q s, q ∈ ps → player.seat q = Some s → s ≠ 0 → s ∈ seats)
      as Hin' by (intros q s ?; apply Hin; by apply list_elem_of_further).
    unfold Room.take_seat. destruct (player.seat p) as [s|] eqn:Hs.
    + change (truthy (Some s)) with (truthy s) in *.
      destruct (truthy s) eqn:E.
      * rewrite decide_True in Hnd |- * by done.
        rewrite fmap_cons, Hs in Hnd. apply NoDup_cons in Hnd as [Hfresh Hnd].
        assert (s ≠ 0) as Hs0.
        { intros ->. by cbv in E. }
        cbn [length]. rewrite Nat.add_succ_r, IH; [|done|].
        -- assert (size (seats ∖ {[ s ]}) = size seats - 1)%nat as ->.
           { rewrite size_difference, size_singleton; [done|].
             apply singleton_subseteq_l. apply (Hin p s); [|done|done].
             apply list_elem_of_here. }
           assert (size seats ≠ 0)%nat; [|lia].
           intros H0%size_empty_inv.
           assert (s ∈ seats) as Hin0
             by (apply (Hin p s); [apply list_elem_of_here|done|done]).
           rewrite H0 in Hin0. by apply not_elem_of_empty in Hin0.
        -- intros q s' Hq Hqs Hs'. apply elem_of_difference. split; [eauto|].
           intros ->%elem_of_singleton. apply Hfresh. rewrite <- Hqs.
           apply list_elem_of_fmap_2, list_elem_of_filter. split; [|done].
           rewrite Hqs. change (truthy (Some s)) with (truthy s). done.
      * rewrite decide_False in Hnd |- * by done. by apply IH.
    + rewrite decide_False in Hnd |- * by done. by apply IH.
Qed.

Lemma size_all_seats : size (list_to_set (range 1 13) : gset Z) = 12%nat.
Proof. reflexivity. Qed.

(** X3. [available_seats] lists numbers of 1..12 without repetition; there
    are at most twelve of them and each seated player of the room takes at
    most one away. *)
Theorem available_seats_bounds (db : database) (r : room.t) :
  NoDup (Room.available_seats db r)
  ∧ (∀ x, x ∈ Room.available_seats db r → 1 ≤ x ≤ 12)
  ∧ (length (Room.available_seats db r) ≤ 12)%nat
  ∧ (12 ≤ length (Room.available_seats db r)
          + length (Room.seated_players db r))%nat.
Proof.
  split_and!.
  - apply NoDup_elements.
  - by intros x [? _]%elem_of_available_seats.
  - unfold Room.available_seats. rewrite <- size_all_seats.
    apply size_take_seats_upper.
  - rewrite seated_players_of_normal. unfold Room.available_seats.
    rewrite <- size_all_seats at 1. apply size_take_seats_lower.
Qed.

(** X4. When the seated players of a room hold pairwise different seats of
    1..12, the available seats and the seated players add up to twelve. *)
Theorem available_seats_count (db : database) (r : room.t) :
  NoDup (player.seat <$> Room.seated_players db r) →
  (∀ p s, p ∈ Room.seated_players db r → player.seat p = Some s →
          1 ≤ s ≤ 12) →
  (length (Room.available_seats db r) + length (Room.seated_players db r))%nat
  = 12%nat.
Proof.
  intros Hnd Hrange. rewrite seated_players_of_normal in *.
  unfold Room.available_seats. rewrite <- size_all_seats.
  apply size_take_seats_exact; [done|].
  intros p s Hp Hs Hs0. apply elem_of_list_to_set, elem_of_range.
  assert (1 ≤ s ≤ 12); [|lia]. apply (Hrange p); [|done].
  apply list_elem_of_filter. split; [|done]. rewrite Hs.
  change (truthy (Some s)) with (truthy s). unfold truthy, truthy_Z.
  by apply negb_true_iff, Z.eqb_neq.
Qed.

Lemma available_seats_count_witness :
  (length (Room.available_seats Sample.seats_1_3_5 Sample.lobby) + 3)%nat
  = 12%nat.
Proof.
  apply (available_seats_count Sample.seats_1_3_5 Sample.lobby).
  - apply (bool_decide_unpack _). vm_compute. exact I.
  - intros p s Hp Hs.
    assert (Room.seated_players Sample.seats_1_3_5 Sample.lobby
            = [Sample.seated 2 1; Sample.seated 3 3; Sample.seated 4 5]) as E
      by reflexivity.
    rewrite E in Hp.
    repeat (apply elem_of_cons in Hp as [->|Hp]; [injection Hs as <-; lia|]).
    by apply elem_of_nil in Hp.
Defined.

(** X5. [available_seats] is empty exactly when each seat of 1..12 is held
    by a normal player of the room. *)
Theorem available_seats_empty_iff (db : database) (r : room.t) :
  Room.available_seats db r = []
  ↔ ∀ x, 1 ≤ x ≤ 12 →
         ∃ p, p ∈ Room.normal_players db r ∧ player.seat p = Some x.
Proof.
  split.
  - intros E x Hx.
    destruct (decide (x ∈ occupied_seats db r)) as [Ho|Ho];
      [by apply elem_of_occupied_seats|].
    assert (x ∈ Room.available_seats db r) as Hin.
    { apply elem_of_available_seats. split; [done|].
      by intros ?%elem_of_occupied_seats. }
    rewrite E in Hin. by apply elem_of_nil in Hin.
  - intros Hall. destruct (Room.available_seats db r) as [|x l] eqn:E; [done|].
    assert (x ∈ Room.available_seats db r) as Hin
      by (rewrite E; apply list_elem_of_here).
    apply elem_of_available_seats in Hin as [Hx Hn].
    destruct Hn. by apply Hall.
Qed.

(** ** [allow_votes] and [disable_votes] *)

Section Votes.

Lemma filter_fmap {A B} (f : A → B) (P : B → Prop) `{!∀ x, Decision (P x)}
    (l : list A) :
  filter P (f <$> l) = f <$> filter (λ x, P (f x)) l.
Proof.
  induction l as [|x l IH]; [done|]. rewrite fmap_cons, !filter_cons.
  destruct (decide (P (f x))); [rewrite fmap_cons|]; by rewrite IH.
Qed.

Lemma mark_id (b : bool) (ids : list Z) (q : player.t) :
  player.id (mark b ids q) = player.id q.
Proof. unfold mark. by case_bool_decide. Qed.

Lemma mark_survives (b : bool) (ids : list Z) (r : room.t) (q : player.t) :
  survives r (mark b ids q) = survives r q.
Proof. unfold mark. by case_bool_decide. Qed.

Lemma mark_mark (b1 b2 : bool) (ids : list Z) (q : player.t) :
  mark b2 ids (mark b1 ids q) = mark b2 ids q.
Proof.
  unfold mark at 2. case_bool_decide as H; [|done].
  unfold mark. cbn [Player.set_capable_for_vote player.id].
  by rewrite bool_decide_eq_true_2.
Qed.

Lemma update_players_compose (f g : player.t → player.t) (db : database) :
  update_players f (update_players g db) = update_players (f ∘ g) db.
Proof.
  unfold update_players. cbn. by rewrite <- list_fmap_compose.
Qed.

Lemma update_players_ext (f g : player.t → player.t) (db : database) :
  (∀ q, q ∈ players db → f q = g q) →
  update_players f db = update_players g db.
Proof.
  intros H. unfold update_players. f_equal. apply list_fmap_ext.
  intros i q Hq. apply H. by apply list_elem_of_lookup_2 in Hq.
Qed.

(** The loop of [allow_votes] and [disable_votes], as one [UPDATE]. *)
Lemma store_loop (b : bool) (ps : list player.t) (db : database) :
  foldl (Room.store_capable_for_vote b) db ps
  = update_players (mark b (player.id <$> ps)) db.
Proof.
  revert db. induction ps as [|p ps IH]; intros db; cbn [foldl].
  - destruct db as [us rs qs gs vs]. unfold update_players. cbn. f_equal.
    rewrite <- (list_fmap_id qs) at 1. apply list_fmap_ext. intros i q _.
    unfold mark. rewrite bool_decide_eq_false_2; [done|]. apply not_elem_of_nil.
  - rewrite IH. unfold Room.store_capable_for_vote.
    rewrite update_players_compose. apply update_players_ext. intros q _.
    cbn [compose]. unfold mark at 2. rewrite fmap_cons.
    case_bool_decide as Hq.
    + unfold mark. cbn [Player.set_capable_for_vote player.id].
      rewrite (bool_decide_eq_true_2 (player.id q ∈ player.id p :: _));
        [|rewrite Hq; apply list_elem_of_here].
      by case_bool_decide.
    + unfold mark.
      destruct (decide (player.id q ∈ player.id <$> ps)) as [Hin|Hin].
      * rewrite !bool_decide_eq_true_2;
          [done|by apply list_elem_of_further|done].
      * rewrite !bool_decide_eq_false_2; [done| |done].
        intros [?|?]%elem_of_cons; done.
Qed.

Lemma survivals_update (b : bool) (ids : list Z) (db : database)
    (r : room.t) :
  Room.survivals (update_players (mark b ids) db) r
  = mark b ids <$> Room.survivals db r.
Proof.
  rewrite !survivals_filter. unfold update_players. cbn [players].
  rewrite filter_fmap. f_equal. apply list_filter_iff. intros q.
  by rewrite mark_survives.
Qed.

Lemma mark_survivals (b : bool) (db : database) (r : room.t) :
  mark b (player.id <$> Room.survivals db r) <$> Room.survivals db r
  = (λ q, Player.set_capable_for_vote q (Some b)) <$> Room.survivals db r.
Proof.
  apply list_fmap_ext. intros i q Hq. unfold mark.
  rewrite bool_decide_eq_true_2; [done|].
  apply list_elem_of_fmap_2. by apply list_elem_of_lookup_2 in Hq.
Qed.

Lemma key_determines_row (rows : list player.t) (p q : player.t) :
  NoDup (player.id <$> rows) → p ∈ rows → q ∈ rows →
  player.id p = player.id q → p = q.
Proof.
  induction rows as [|x rows IH]; intros Hnd Hp Hq E.
  - by apply elem_of_nil in Hp.
  - rewrite fmap_cons in Hnd. apply NoDup_cons in Hnd as [Hx Hnd].
    apply elem_of_cons in Hp as [->|Hp]; apply elem_of_cons in Hq as [->|Hq].
    + done.
    + destruct Hx. rewrite E. by apply list_elem_of_fmap_2.
    + destruct Hx. rewrite <- E. by apply list_elem_of_fmap_2.
    + by apply IH.
Qed.

End Votes.

(** X6. After [allow_votes] the survivors of the room are the former
    survivors with [capable_for_vote] set to [True]; after [disable_votes]
    they are the former survivors with the flag set to [False]. *)
Theorem votes_flag_of_survivors (db : database) (r : room.t) :
  Room.survivals (Room.allow_votes db r) r
  = (λ q, Player.set_capable_for_vote q (Some true)) <$> Room.survivals db r
  ∧ Room.survivals (Room.disable_votes db r) r
    = (λ q, Player.set_capable_for_vote q (Some false))
        <$> Room.survivals db r
  ∧ Forall (λ q, player.capable_for_vote q = Some true)
           (Room.survivals (Room.allow_votes db r) r)
  ∧ Forall (λ q, player.capable_for_vote q = Some false)
           (Room.survivals (Room.disable_votes db r) r).
Proof.
  assert (∀ b, Room.survivals
                 (foldl (Room.store_capable_for_vote b) db
                        (Room.survivals db r)) r
               = (λ q, Player.set_capable_for_vote q (Some b))
                   <$> Room.survivals db r) as H.
  { intros b. by rewrite store_loop, survivals_update, mark_survivals. }
  unfold Room.allow_votes, Room.disable_votes. rewrite !H.
  split_and!; [done|done| |]; by apply Forall_fmap, Forall_true.
Qed.

Lemma mark_exactly_survivors (b : bool) (db : database) (r : room.t)
    (q : player.t) :
  player_primary_key db → q ∈ players db →
  mark b (player.id <$> Room.survivals db r) q
  = if survives r q then Player.set_capable_for_vote q (Some b) else q.
Proof.
  intros Hpk Hq. unfold mark. destruct (survives r q) eqn:E.
  - rewrite bool_decide_eq_true_2; [done|]. apply list_elem_of_fmap_2.
    rewrite survivals_filter. by apply list_elem_of_filter.
  - rewrite bool_decide_eq_false_2; [done|].
    intros (q' & Hid & Hq')%list_elem_of_fmap.
    rewrite survivals_filter in Hq'.
    apply list_elem_of_filter in Hq' as [Hs Hq'].
    assert (q = q') as <- by (by apply (key_determines_row (players db))).
    congruence.
Qed.

(** X7. In a store where [player.id] is a key, [allow_votes] and
    [disable_votes] rewrite the flag of exactly the rows that survive in the
    room; every other row keeps its flag, so a dead player that could vote
    still can after [disable_votes]. *)
Theorem votes_rewrite_exactly_survivors (db : database) (r : room.t) :
  player_primary_key db →
  players (Room.allow_votes db r)
  = (λ q, if survives r q then Player.set_capable_for_vote q (Some true)
          else q) <$> players db
  ∧ players (Room.disable_votes db r)
    = (λ q, if survives r q then Player.set_capable_for_vote q (Some false)
            else q) <$> players db.
Proof.
  intros Hpk. unfold Room.allow_votes, Room.disable_votes.
  rewrite !store_loop. unfold update_players. cbn [players].
  split; apply list_fmap_ext; intros i q Hq%list_elem_of_lookup_2;
    by apply mark_exactly_survivors.
Qed.

Lemma votes_rewrite_exactly_survivors_witness :
  players (Room.disable_votes Sample.in_play Sample.lobby)
  = [Sample.moderator 1; Sample.seated 2 1; Sample.seated 3 3;
     Sample.fallen 4 5].
Proof.
  apply (proj2 (votes_rewrite_exactly_survivors Sample.in_play Sample.lobby
                  ltac:(apply (bool_decide_unpack _); vm_compute; exact I))).
Defined.

Lemma survivals_ids_update (b : bool) (ids : list Z) (db : database)
    (r : room.t) :
  player.id <$> Room.survivals (update_players (mark b ids) db) r
  = player.id <$> Room.survivals db r.
Proof.
  rewrite survivals_update, <- list_fmap_compose. apply list_fmap_ext.
  intros i q _. apply mark_id.
Qed.

Lemma store_loop_twice (b1 b2 : bool) (db : database) (r : room.t) :
  let db1 := foldl (Room.store_capable_for_vote b1) db (Room.survivals db r) in
  foldl (Room.store_capable_for_vote b2) db1 (Room.survivals db1 r)
  = foldl (Room.store_capable_for_vote b2) db (Room.survivals db r).
Proof.
  cbn zeta. rewrite !store_loop, survivals_ids_update.
  rewrite update_players_compose. apply update_players_ext. intros q _.
  apply mark_mark.
Qed.

(** X8. The last of two calls decides: [disable_votes] after [allow_votes]
    leaves the store that [disable_votes] alone would, [allow_votes] after
    [disable_votes] the store of [allow_votes] alone, and each of the two
    is idempotent. *)
Theorem votes_last_call_wins (db : database) (r : room.t) :
  Room.disable_votes (Room.allow_votes db r) r = Room.disable_votes db r
  ∧ Room.allow_votes (Room.disable_votes db r) r = Room.allow_votes db r
  ∧ Room.allow_votes (Room.allow_votes db r) r = Room.allow_votes db r
  ∧ Room.disable_votes (Room.disable_votes db r) r = Room.disable_votes db r.
Proof.
  unfold Room.allow_votes, Room.disable_votes.
  split_and!; apply store_loop_twice.
Qed.

Lemma normal_players_update (b : bool) (ids : list Z) (db : database)
    (r : room.t) :
  Room.normal_players (update_players (mark b ids) db) r
  = mark b ids <$> Room.normal_players db r.
Proof.
  unfold Room.normal_players, Room.players, update_players. cbn [players].
  rewrite !list_filter_filter, filter_fmap. f_equal.
  apply list_filter_iff. intros q. unfold mark. by case_bool_decide.
Qed.

Lemma available_seats_update (b : bool) (ids : list Z) (db : database)
    (r : room.t) :
  Room.available_seats (update_players (mark b ids) db) r
  = Room.available_seats db r.
Proof.
  unfold Room.available_seats. rewrite normal_players_update, foldl_fmap.
  f_equal. generalize (list_to_set (range 1 13) : gset Z).
  induction (Room.normal_players db r) as [|q l IH]; intros seats; [done|].
  cbn [foldl]. rewrite <- IH. f_equal. unfold Room.take_seat, mark.
  by case_bool_decide.
Qed.

Lemma same_but_flag_update (b : bool) (ids : list Z) (db : database) :
  Forall2 same_but_flag (players db)
          (players (update_players (mark b ids) db)).
Proof.
  unfold update_players. cbn [players]. apply Forall2_fmap_r.
  apply Forall_Forall2_diag, Forall_forall. intros q _.
  unfold same_but_flag, compose, mark. case_bool_decide; by destruct q.
Qed.

(** X9. [allow_votes] and [disable_votes] write nothing but
    [capable_for_vote]: the tables [user], [room], [game] and [vote] are
    left alone, each row of [player] is the old row at the same place but
    for that flag, and the available seats of every room stay the same. *)
Theorem votes_change_the_flag_only (db : database) (r : room.t) :
  only_flags_changed db (Room.allow_votes db r)
  ∧ only_flags_changed db (Room.disable_votes db r).
Proof.
  unfold Room.allow_votes, Room.disable_votes. rewrite !store_loop.
  split; (split_and!; [done|done|done|done|apply same_but_flag_update|]);
    intros r'; apply available_seats_update.
Qed.

(** ** The game of a room: [set_round], [template], [__repr__] *)

Section Round.

Lemma game_update (f : game.t → game.t) (db : database) (r : room.t) :
  (∀ h, game.room_id (f h) = game.room_id h) →
  Room.game (update_games f db) r = f <$> Room.game db r.
Proof.
  intros Hf. unfold Room.game, update_games, first. cbn [games].
  rewrite filter_fmap.
  rewrite (list_filter_iff _ (λ g, game.room_id g = room.id r))
    by (intros h; by rewrite Hf).
  by destruct (filter _ (games db)).
Qed.

Lemma game_room_id (db : database) (r : room.t) (g : game.t) :
  Room.game db r = Some g → g ∈ games db ∧ game.room_id g = room.id r.
Proof.
  unfold Room.game, first. intros H.
  assert (g ∈ filter (λ g, game.room_id g = room.id r) (games db)) as Hin.
  { destruct (filter _ (games db)) as [|g' l]; [done|].
    injection H as ->. apply list_elem_of_here. }
  apply list_elem_of_filter in Hin. tauto.
Qed.

Lemma status_of_round (g : game.t) (rn : string) :
  Game.status (Game.set_current_round g (VStr rn))
  = if bool_decide (rn = EmptyString) then VStr Game.awaiting_instruction
    else VStr rn.
Proof.
  unfold Game.status.
  change (truthy (game.current_round (Game.set_current_round g (VStr rn))))
    with (negb (String.eqb rn EmptyString)).
  destruct (String.eqb_spec rn EmptyString) as [->|Hne]; cbn [negb].
  - done.
  - by rewrite bool_decide_eq_false_2.
Qed.

Lemma game_after_store (db : database) (r : room.t) (g : game.t) (v : value) :
  Room.game db r = Some g →
  Room.game (Room.store_current_round v db g) r
  = Some (Game.set_current_round g v).
Proof.
  intros Hg. unfold Room.store_current_round. rewrite game_update.
  - rewrite Hg. cbn. by rewrite bool_decide_eq_true_2.
  - intros h. by case_bool_decide.
Qed.

End Round.

(** X10. In a room that has a game, [set_round] succeeds; afterwards the
    game of the room is the former one with the new [current_round], its
    other columns as before (an ended game stays inactive), and its
    [status] is the round name, or the placeholder when the name is the
    empty string. *)
Theorem set_round_then_status
    (db : database) (r : room.t) (round_name : string) (g : game.t) :
  Room.game db r = Some g →
  ∃ db',
    Room.set_round db r round_name = Ret db'
    ∧ Room.game db' r = Some (Game.set_current_round g (VStr round_name))
    ∧ Game.status <$> Room.game db' r
      = Some (if bool_decide (round_name = EmptyString)
              then VStr Game.awaiting_instruction else VStr round_name).
Proof.
  intros Hg. exists (Room.store_current_round (VStr round_name) db g).
  pose proof (game_after_store db r g (VStr round_name) Hg) as E.
  split_and!.
  - unfold Room.set_round. by rewrite Hg.
  - done.
  - rewrite E. cbn [fmap option_fmap option_map]. by rewrite status_of_round.
Qed.

Lemma set_round_then_status_witness :
  ∃ db', Room.set_round Sample.in_play Sample.lobby "day1" = Ret db'
         ∧ Game.status <$> Room.game db' Sample.lobby = Some (VStr "day1").
Proof.
  destruct (set_round_then_status Sample.in_play Sample.lobby "day1"
              Sample.running eq_refl) as (db' & E & _ & Hs).
  exists db'. split; [exact E|exact Hs].
Defined.

(** X11. In a room without a game, [set_round], [template] and [__repr__]
    each fail on [None]: [set_round] with the [AttributeError] of
    [current_round], the other two with that of [template]. *)
Theorem room_without_game (db : database) (r : room.t) (round_name : string) :
  Room.game db r = None →
  Room.set_round db r round_name
  = Raise (AttributeError none_type "current_round")
  ∧ Room.template db r = Raise (AttributeError none_type "template")
  ∧ Room.repr db r = Raise (AttributeError none_type "template").
Proof.
  intros Hg. unfold Room.set_round, Room.template, Room.repr.
  by rewrite Hg.
Qed.

Lemma room_without_game_witness :
  Room.set_round Sample.no_host Sample.lobby "day1"
  = Raise (AttributeError none_type "current_round").
Proof.
  apply (room_without_game Sample.no_host Sample.lobby "day1"). reflexivity.
Defined.

(** X12. Of two [set_round] in a row the second decides: the outcome is
    that of the second alone, the store included. *)
Theorem set_round_last_wins (db : database) (r : room.t) (a b : string) :
  Room.set_round db r a ≫= (λ db', Room.set_round db' r b)
  = Room.set_round db r b.
Proof.
  destruct (Room.game db r) as [g|] eqn:Hg.
  - unfold Room.set_round. rewrite Hg. cbn [getattr_opt mbind res_bind Py.bind].
    rewrite (game_after_store db r g (VStr a) Hg). cbn [getattr_opt]. f_equal.
    unfold Room.store_current_round, update_games. cbn [games users rooms
      players votes]. f_equal. rewrite <- list_fmap_compose.
    apply list_fmap_ext. intros i h _. cbn [compose game.id
      Game.set_current_round].
    destruct (decide (game.id h = game.id g)) as [Hh|Hh].
    + rewrite !(bool_decide_eq_true_2 (game.id h = game.id g) Hh).
      done.
    + by rewrite !(bool_decide_eq_false_2 (game.id h = game.id g) Hh).
  - unfold Room.set_round. by rewrite Hg.
Qed.

Lemma key_determines {A} (key : A → Z) (rows : list A) (x y : A) :
  NoDup (key <$> rows) → x ∈ rows → y ∈ rows → key x = key y → x = y.
Proof.
  induction rows as [|z rows IH]; intros Hnd Hx Hy E.
  - by apply elem_of_nil in Hx.
  - rewrite fmap_cons in Hnd. apply NoDup_cons in Hnd as [Hz Hnd].
    apply elem_of_cons in Hx as [->|Hx]; apply elem_of_cons in Hy as [->|Hy].
    + done.
    + destruct Hz. rewrite E. by apply list_elem_of_fmap_2.
    + destruct Hz. rewrite <- E. by apply list_elem_of_fmap_2.
    + by apply IH.
Qed.

(** X13. A successful [set_round] writes to the table [game] only, and,
    where [game.id] is a key, to the game of that room only: the game of
    every other room is as before. *)
Theorem set_round_touches_one_game
    (db db' : database) (r : room.t) (round_name : string) :
  Room.set_round db r round_name = Ret db' →
  users db' = users db ∧ rooms db' = rooms db
  ∧ players db' = players db ∧ votes db' = votes db
  ∧ (game_primary_key db →
     ∀ r', room.id r' ≠ room.id r → Room.game db' r' = Room.game db r').
Proof.
  unfold Room.set_round. destruct (Room.game db r) as [g|] eqn:Hg; [|done].
  cbn [getattr_opt]. intros [= <-]. split_and!; try done.
  intros Hpk r' Hr'. unfold Room.store_current_round. rewrite game_update
    by (intros h; by case_bool_decide).
  destruct (Room.game db r') as [g'|] eqn:Hg'; [|done].
  cbn [fmap option_fmap option_map]. rewrite bool_decide_eq_false_2; [done|].
  intros Hid. apply game_room_id in Hg as [Hin Hr].
  apply game_room_id in Hg' as [Hin' Hr2].
  assert (g' = g) as -> by (by apply (key_determines game.id (games db))).
  congruence.
Qed.

Lemma set_round_touches_one_game_witness :
  players (Room.store_current_round (VStr "day1") Sample.in_play Sample.running)
  = players Sample.in_play.
Proof.
  apply (set_round_touches_one_game Sample.in_play _ Sample.lobby "day1").
  reflexivity.
Defined.

(** ** class User: [is_host], [current_role]; class Player: [name] *)

(** X14. [User.is_host] returns a boolean exactly when the user has a
    player row.  It answers for the first row only: [True] tells that some
    row of the user is a host, [False] that some row of the user is not. *)
Theorem user_is_host_outcomes (db : database) (u : user.t) :
  (User.role db u ≠ [] ↔ ∃ b, User.is_host db u = Ret b)
  ∧ (User.is_host db u = Ret true →
     ∃ p, p ∈ players db ∧ player.user_id p = user.id u
          ∧ player.is_host p = Some true)
  ∧ (User.is_host db u = Ret false →
     ∃ p, p ∈ players db ∧ player.user_id p = user.id u
          ∧ player.is_host p ≠ Some true).
Proof.
  unfold User.is_host, first.
  destruct (User.role db u) as [|p rest] eqn:E; cbn.
  - split_and!; [|done|done]. split; [done|]. by intros [b ?].
  - assert (p ∈ players db ∧ player.user_id p = user.id u) as [Hp Hu].
    { assert (p ∈ User.role db u) as Hin by (rewrite E; apply list_elem_of_here).
      unfold User.role in Hin. apply list_elem_of_filter in Hin. tauto. }
    split_and!.
    + split; [by eexists|done].
    + intros [= H%bool_decide_eq_true_1]. by exists p.
    + intros [= H%bool_decide_eq_false_1]. by exists p.
Qed.

Lemma user_is_host_outcomes_witness :
  ∃ p, p ∈ players Sample.in_play ∧ player.user_id p = 102
       ∧ player.is_host p ≠ Some true.
Proof.
  apply (proj2 (proj2 (user_is_host_outcomes Sample.in_play
                         (user.mk 102 (Some "bob") None None)))).
  reflexivity.
Defined.

(** X15. [current_role] fails on [None] when no room has the name.  A
    player that it returns is a row of the user in a room of that name.  It
    looks at the first room of the name only: it returns [None] exactly
    when the user has no player there. *)
Theorem current_role_outcomes (db : database) (u : user.t) (room_name : string) :
  ((∀ r, r ∈ rooms db → room.name r ≠ room_name) →
   User.current_role db u room_name = Raise (AttributeError none_type "id"))
  ∧ (∀ p, User.current_role db u room_name = Ret (Some p) →
          p ∈ players db ∧ player.user_id p = user.id u
          ∧ ∃ r, r ∈ rooms db ∧ room.name r = room_name
                 ∧ p ∈ Room.players db r)
  ∧ (∀ r rest,
        filter (λ r, room.name r = room_name) (rooms db) = r :: rest →
        (User.current_role db u room_name = Ret None
         ↔ ∀ p, p ∈ Room.players db r → player.user_id p ≠ user.id u)).
Proof.
  unfold User.current_role, first.
  destruct (filter (λ r, room.name r = room_name) (rooms db))
    as [|r0 rest0] eqn:E; cbn [head getattr_opt mbind res_bind Py.bind].
  - split_and!; [done|done|done].
  - assert (r0 ∈ rooms db ∧ room.name r0 = room_name) as [Hr0 Hn0].
    { assert (r0 ∈ filter (λ r, room.name r = room_name) (rooms db)) as Hin
        by (rewrite E; apply list_elem_of_here).
      apply list_elem_of_filter in Hin. tauto. }
    split_and!.
    + intros Hno. by destruct (Hno r0 Hr0).
    + intros p [= Hp].
      destruct (filter (λ p, player.room_id p = room.id r0) (User.role db u))
        as [|p0 l] eqn:Ef; [done|]. injection Hp as ->.
      assert (p ∈ filter (λ p, player.room_id p = room.id r0)
                         (User.role db u)) as Hin
        by (rewrite Ef; apply list_elem_of_here).
      unfold User.role in Hin.
      apply list_elem_of_filter in Hin as [Hroom Hin].
      apply list_elem_of_filter in Hin as [Huser Hin].
      split_and!; [done|done|]. exists r0. split_and!; [done|done|].
      unfold Room.players. by apply list_elem_of_filter.
    + intros r rest [= <- <-]. split.
      * intros [= Hnone] p Hp Hu.
        assert (p ∈ filter (λ p, player.room_id p = room.id r0)
                           (User.role db u)) as Hin.
        { unfold Room.players in Hp. apply list_elem_of_filter in Hp as [? ?].
          unfold User.role. by rewrite !list_elem_of_filter. }
        destruct (filter _ (User.role db u)); [|done].
        by apply elem_of_nil in Hin.
      * intros Hno.
        destruct (filter (λ p, player.room_id p = room.id r0) (User.role db u))
          as [|p0 l] eqn:Ef; [done|].
        assert (p0 ∈ filter (λ p, player.room_id p = room.id r0)
                            (User.role db u)) as Hin
          by (rewrite Ef; apply list_elem_of_here).
        unfold User.role in Hin.
        apply list_elem_of_filter in Hin as [Hroom Hin].
        apply list_elem_of_filter in Hin as [Huser Hin].
        destruct (Hno p0); [|done]. unfold Room.players.
        by apply list_elem_of_filter.
Qed.

Lemma current_role_outcomes_witness :
  User.current_role Sample.same_name Sample.carol "lobby" = Ret None
  ∧ User.current_role Sample.same_name Sample.carol "cellar"
    = Raise (AttributeError none_type "id").
Proof.
  split.
  - apply (proj2 (proj2 (current_role_outcomes Sample.same_name Sample.carol
                           "lobby")) Sample.lobby [room.mk 2 "lobby"] eq_refl).
    intros p Hp. change (Room.players Sample.same_name Sample.lobby)
      with (@nil player.t) in Hp. by apply elem_of_nil in Hp.
  - apply (proj1 (current_role_outcomes Sample.same_name Sample.carol
                    "cellar")).
    intros r Hr. change (rooms Sample.same_name)
      with [Sample.lobby; room.mk 2 "lobby"] in Hr.
    repeat (apply elem_of_cons in Hr as [->|Hr]; [discriminate|]).
    by apply elem_of_nil in Hr.
Defined.

(** X16. Where [user.id] is a key, [name] of a player found through the
    [role] of a stored user is the [username] of that user; [name] fails on
    [None] when no user has the [user_id] of the player. *)
Theorem player_name_of_role (db : database) (u : user.t) (p : player.t) :
  (user_primary_key db → u ∈ users db → p ∈ User.role db u →
   Player.name db p = Ret (user.username u))
  ∧ ((∀ u', u' ∈ users db → user.id u' ≠ player.user_id p) →
     Player.name db p = Raise (AttributeError none_type "username")).
Proof.
  unfold Player.name, Player.user, first. split.
  - intros Hpk Hu Hp. unfold User.role in Hp.
    apply list_elem_of_filter in Hp as [Hid _].
    destruct (filter (λ u, user.id u = player.user_id p) (users db))
      as [|u0 l] eqn:E.
    + assert (u ∈ filter (λ u, user.id u = player.user_id p) (users db))
        as Hin by (by apply list_elem_of_filter).
      rewrite E in Hin. by apply elem_of_nil in Hin.
    + assert (u0 ∈ filter (λ u, user.id u = player.user_id p) (users db))
        as Hin by (rewrite E; apply list_elem_of_here).
      apply list_elem_of_filter in Hin as [Hid0 Hin].
      assert (u0 = u) as ->
        by (apply (key_determines user.id (users db));
            [exact Hpk|done|done|congruence]).
      done.
  - intros Hno.
    destruct (filter (λ u, user.id u = player.user_id p) (users db))
      as [|u0 l] eqn:E; [done|].
    assert (u0 ∈ filter (λ u, user.id u = player.user_id p) (users db))
      as Hin by (rewrite E; apply list_elem_of_here).
    apply list_elem_of_filter in Hin as [Hid0 Hin]. by destruct (Hno u0).
Qed.

Lemma player_name_of_role_witness :
  Player.name Sample.in_play (Sample.seated 2 1) = Ret (Some "bob")
  ∧ Player.name Sample.in_play (Sample.seated 3 3)
    = Raise (AttributeError none_type "username").
Proof.
  split.
  - apply (proj1 (player_name_of_role Sample.in_play
                    (user.mk 102 (Some "bob") None None) (Sample.seated 2 1))).
    + apply (bool_decide_unpack _). vm_compute. exact I.
    + apply list_elem_of_here.
    + apply list_elem_of_here.
  - apply (proj2 (player_name_of_role Sample.in_play
                    (user.mk 102 (Some "bob") None None) (Sample.seated 3 3))).
    intros u' Hu'. change (users Sample.in_play)
      with [user.mk 102 (Some "bob") None None] in Hu'.
    apply elem_of_cons in Hu' as [->|Hu']; [discriminate|].
    by apply elem_of_nil in Hu'.
Defined.

(** ** class Vote and class Game, further *)

(** X17. [vote_from] fails on [None] exactly when no row of [player] has
    the [player_id] of the vote (an unset [player_id] included); otherwise
    it returns the seat of a row with that id. *)
Theorem vote_from_outcomes (db : database) (v : vote.t) :
  (Vote.vote_from db v = Raise (AttributeError none_type "seat")
   ↔ ∀ p, p ∈ players db → Some (player.id p) ≠ vote.player_id v)
  ∧ (∀ s, Vote.vote_from db v = Ret s →
          ∃ p, p ∈ players db ∧ Some (player.id p) = vote.player_id v
               ∧ player.seat p = s).
Proof.
  unfold Vote.vote_from, first.
  destruct (filter (λ p, Some (player.id p) = vote.player_id v) (players db))
    as [|p0 l] eqn:E; cbn [head getattr_opt].
  - split; [|done]. split; [|done]. intros _ p Hp Hid.
    assert (p ∈ filter (λ p, Some (player.id p) = vote.player_id v)
                       (players db)) as Hin by (by apply list_elem_of_filter).
    rewrite E in Hin. by apply elem_of_nil in Hin.
  - assert (p0 ∈ filter (λ p, Some (player.id p) = vote.player_id v)
                        (players db)) as Hin
      by (rewrite E; apply list_elem_of_here).
    apply list_elem_of_filter in Hin as [Hid Hin]. split.
    + split; [done|]. intros Hno. by destruct (Hno p0).
    + intros s [= <-]. by exists p0.
Qed.

Lemma vote_from_outcomes_witness :
  Vote.vote_from Sample.voted_twice (Sample.ballot 3 8 1 "round1")
  = Raise (AttributeError none_type "seat").
Proof.
  apply (proj1 (vote_from_outcomes Sample.voted_twice
                  (Sample.ballot 3 8 1 "round1"))).
  intros p Hp. change (players Sample.voted_twice)
    with [Sample.moderator 1; Sample.seated 2 1] in Hp.
  repeat (apply elem_of_cons in Hp as [->|Hp]; [discriminate|]).
  by apply elem_of_nil in Hp.
Defined.

(** X18. A vote that [validate] returns has a [vote_for] of 0..12 and the
    [id], [game_id], [player_id] and [round] of the vote it was given;
    [validate] returns exactly when [vote_for] is set. *)
Theorem validate_result_in_range (v : vote.t) :
  (∀ v', Vote.validate v = Ret v' →
         (∃ n, vote.vote_for v' = Some n ∧ 0 ≤ n ≤ 12)
         ∧ vote.id v' = vote.id v ∧ vote.game_id v' = vote.game_id v
         ∧ vote.player_id v' = vote.player_id v
         ∧ vote.round v' = vote.round v)
  ∧ ((∃ v', Vote.validate v = Ret v') ↔ vote.vote_for v ≠ None).
Proof.
  unfold Vote.validate. destruct (vote.vote_for v) as [n|] eqn:Hn.
  - split; [|split; [done|intros _]].
    + intros v'. destruct ((n <=? 0) || (n >=? 13)) eqn:E; intros [= <-].
      * split_and!; try done. exists 0. split; [done|lia].
      * split_and!; try done. exists n. split; [done|].
        apply orb_false_iff in E as [E1 E2]. lia.
    + destruct ((n <=? 0) || (n >=? 13)); eauto.
  - split; [done|]. split; [by intros [? ?]|done].
Qed.

Lemma validate_result_in_range_witness :
  (∃ n, vote.vote_for (Sample.ballot 1 2 0 "round1") = Some n ∧ 0 ≤ n ≤ 12).
Proof.
  apply (proj1 (validate_result_in_range (Sample.ballot 1 2 (-4) "round1"))
           (Sample.ballot 1 2 0 "round1")).
  reflexivity.
Defined.

(** X19. [end] forgets what it overwrites: ending a game again restamps
    [finish_time] with the later reading of the clock and changes nothing
    else, and a round set before [end] leaves no trace. *)
Theorem end_overwrites (t1 t2 : datetime) (g : game.t) (v : value) :
  Game.end_ t2 (Game.end_ t1 g) = Game.end_ t2 g
  ∧ Game.end_ t2 (Game.set_current_round g v) = Game.end_ t2 g.
Proof. by destruct g. Qed.

(** X20. [status] is never falsy: it is not [None], not the empty string
    and not 0, whatever [current_round] holds. *)
Theorem status_never_falsy (g : game.t) :
  truthy (Game.status g) = true
  ∧ Game.status g ≠ VNone
  ∧ Game.status g ≠ VStr EmptyString
  ∧ Game.status g ≠ VInt 0.
Proof.
  assert (truthy (Game.status g) = true) as H.
  { unfold Game.status. destruct (truthy (game.current_round g)) eqn:E; done. }
  split_and!; [done|..]; intros E; by rewrite E in H.
Qed.

(** ** [view_vote_results], when players voted more than once *)

Section FirstVotes.

Variable db : database.




End FirstVotes.



(** ** What [set_round], [allow_votes] and [disable_votes] leave alone *)

Section Frames.

Lemma loop_same_tables (db db' : database) (rn : string) :
  players db' = players db → votes db' = votes db →
  ∀ ps results,
    Room.view_vote_results_loop db' rn ps results
    = Room.view_vote_results_loop db rn ps results.
Proof.
  intros Hp Hv. induction ps as [|p ps IH]; intros results; [done|].
  cbn [Room.view_vote_results_loop].
  unfold Player.votes_in_round, Player.votes, Vote.vote_from.
  rewrite Hp, Hv.
  destruct (first _) as [v|]; cbn [getattr_opt mbind res_bind Py.bind];
    [|done].
  destruct (getattr_opt _ _ _) as [s|e]; cbn [mbind res_bind Py.bind];
    [|done].
  apply IH.
Qed.

Lemma seated_players_update (b : bool) (ids : list Z) (db : database)
    (r : room.t) :
  Room.seated_players (update_players (mark b ids) db) r
  = mark b ids <$> Room.seated_players db r.
Proof.
  unfold Room.seated_players, Room.players, update_players. cbn [players].
  rewrite !list_filter_filter, filter_fmap. f_equal.
  apply list_filter_iff. intros q. unfold mark. by case_bool_decide.
Qed.

Lemma vote_from_update (b : bool) (ids : list Z) (db : database)
    (v : vote.t) :
  Vote.vote_from (update_players (mark b ids) db) v = Vote.vote_from db v.
Proof.
  unfold Vote.vote_from, update_players, first. cbn [players].
  rewrite filter_fmap.
  rewrite (list_filter_iff _ (λ p, Some (player.id p) = vote.player_id v))
    by (intros q; by rewrite mark_id).
  destruct (filter _ (players db)) as [|q l]; [done|].
  cbn. unfold mark. by case_bool_decide.
Qed.

Lemma loop_update (b : bool) (ids : list Z) (db : database) (rn : string) :
  ∀ ps results,
    Room.view_vote_results_loop (update_players (mark b ids) db) rn
                                (mark b ids <$> ps) results
    = Room.view_vote_results_loop db rn ps results.
Proof.
  induction ps as [|p ps IH]; intros results; [done|].
  rewrite fmap_cons. cbn [Room.view_vote_results_loop].
  assert (Player.votes_in_round (update_players (mark b ids) db)
                                (mark b ids p) rn
          = Player.votes_in_round db p rn) as ->.
  { unfold Player.votes_in_round, Player.votes, update_players. cbn [votes].
    by rewrite mark_id. }
  destruct (first _) as [v|]; cbn [getattr_opt mbind res_bind Py.bind];
    [|done].
  rewrite vote_from_update.
  destruct (Vote.vote_from db v) as [s|e]; cbn [mbind res_bind Py.bind];
    [|done].
  apply IH.
Qed.

End Frames.

(** X22. A successful [set_round] changes no view of the players of any
    room: [host], [available_seats], [seated_players], [survivals] and
    [view_vote_results] give what they gave before. *)
Theorem set_round_keeps_views
    (db db' : database) (r : room.t) (round_name : string) :
  Room.set_round db r round_name = Ret db' →
  ∀ r', Room.host db' r' = Room.host db r'
        ∧ Room.available_seats db' r' = Room.available_seats db r'
        ∧ Room.seated_players db' r' = Room.seated_players db r'
        ∧ Room.survivals db' r' = Room.survivals db r'
        ∧ ∀ rn, Room.view_vote_results db' r' rn
                = Room.view_vote_results db r' rn.
Proof.
  unfold Room.set_round. destruct (Room.game db r) as [g|]; [|done].
  cbn [getattr_opt]. intros [= <-] r'. split_and!; try done.
  intros rn. unfold Room.view_vote_results.
  by rewrite (loop_same_tables db).
Qed.

Lemma set_round_keeps_views_witness :
  Room.survivals
    (Room.store_current_round (VStr "day1") Sample.in_play Sample.running)
    Sample.lobby
  = [Sample.seated 2 1; Sample.seated 3 3].
Proof.
  apply (set_round_keeps_views Sample.in_play _ Sample.lobby "day1" eq_refl
           Sample.lobby).
Defined.

(** X23. The vote results do not depend on [capable_for_vote]:
    [view_vote_results] gives the same outcome after [allow_votes] and
    after [disable_votes] as before, in every room and round. *)
Theorem votes_flags_keep_results
    (db : database) (r r' : room.t) (round_name : string) :
  Room.view_vote_results (Room.allow_votes db r) r' round_name
  = Room.view_vote_results db r' round_name
  ∧ Room.view_vote_results (Room.disable_votes db r) r' round_name
    = Room.view_vote_results db r' round_name.
Proof.
  unfold Room.allow_votes, Room.disable_votes, Room.view_vote_results.
  rewrite !store_loop, !seated_players_update. split; apply loop_update.
Qed.
